(** * Golden Hour: lighting windows, classification, next event, countdown

    A shallow embedding of the time arithmetic of
    [src/components/GoldenHourApp.tsx].

    Conventions of the embedding.
    - A JavaScript [Date] is modelled by its time value, the integer number
      of milliseconds since the epoch ([Date.prototype.getTime]), as a [Z].
      [new Date(x).getTime()] is [x]; the invalid date (time value NaN) and
      the clipping of time values beyond 8.64e15 ms are outside the model.
    - The component is a closure over React state.  The state cells the time
      arithmetic reads are gathered in the record [AppState]; every function
      of the component becomes a function of that record.
    - [SunCalc.getTimes] and the local-calendar step
      [setDate(getDate() + 1)] are external: they are variables of the
      section [Component].
    - [new Date()] reads the wall clock; the instant it returns is an
      explicit argument named [wall]. *)

From Stdlib Require Import ZArith List String Ascii Bool Lia QArith.
From Stdlib Require Import Decimal DecimalString DecimalZ DecimalFacts.
Import ListNotations.

Local Open Scope string_scope.
Local Open Scope Z_scope.

(** ** Data model *)

(** [interface Location]: two JavaScript numbers (degrees). *)
Record Location : Type := mkLocation {
  latitude : Q;
  longitude : Q
}.

(** The part of the object returned by [SunCalc.getTimes] the component
    reads. *)
Module SunCalc.
Record Times : Type := mkTimes {
  sunrise : Z;
  sunset : Z
}.
End SunCalc.

(** [interface SunTimes]. *)
Record SunTimes : Type := mkSunTimes {
  goldenHourStart : Z;
  goldenHourEnd : Z;
  blueHourStart : Z;
  blueHourEnd : Z;
  sunrise : Z;
  sunset : Z
}.

(** The React state the time arithmetic reads. *)
Record AppState : Type := mkAppState {
  location : option Location;
  sunTimes : option SunTimes;
  currentTime : Z
}.

(** The three string literals returned by [getCurrentLightingCondition]. *)
Inductive LightingCondition : Type :=
| day
| golden
| blue.

(** The object literals [{ type, time }] built by [getNextSpecialTime]. *)
Record SpecialTime : Type := mkSpecialTime {
  type : string;
  time : Z
}.

(** A call either returns a value or throws a [TypeError] (property read on
    [null]). *)
Inductive Completion (A : Type) : Type :=
| Normal (a : A)
| TypeError.

Arguments Normal {A} a.
Arguments TypeError {A}.

(** ** Window derivation (the second [useEffect]) *)

(** The eight [const]s computed by the effect, in source order. *)
Record Windows : Type := mkWindows {
  goldenHourMorningStart : Z;
  goldenHourMorningEnd : Z;
  goldenHourEveningStart : Z;
  goldenHourEveningEnd : Z;
  blueHourMorningStart : Z;
  blueHourMorningEnd : Z;
  blueHourEveningStart : Z;
  blueHourEveningEnd : Z
}.

Definition computeWindows (times : SunCalc.Times) : Windows :=
  {| goldenHourMorningStart := SunCalc.sunrise times;
     goldenHourMorningEnd := SunCalc.sunrise times + 30 * 60 * 1000;
     goldenHourEveningStart := SunCalc.sunset times - 30 * 60 * 1000;
     goldenHourEveningEnd := SunCalc.sunset times;
     blueHourMorningStart := SunCalc.sunrise times - 20 * 60 * 1000;
     blueHourMorningEnd := SunCalc.sunrise times;
     blueHourEveningStart := SunCalc.sunset times;
     blueHourEveningEnd := SunCalc.sunset times + 20 * 60 * 1000 |}.

(** The object literal handed to [setSunTimes]. *)
Definition storedSunTimes (times : SunCalc.Times) (w : Windows) : SunTimes :=
  {| goldenHourStart := goldenHourMorningStart w;
     goldenHourEnd := goldenHourEveningEnd w;
     blueHourStart := blueHourMorningStart w;
     blueHourEnd := blueHourEveningEnd w;
     sunrise := SunCalc.sunrise times;
     sunset := SunCalc.sunset times |}.

(** The state setters of the three [useState] cells. *)
Definition setSunTimes (v : option SunTimes) (st : AppState) : AppState :=
  {| location := location st; sunTimes := v; currentTime := currentTime st |}.

Definition setLocation (v : option Location) (st : AppState) : AppState :=
  {| location := v; sunTimes := sunTimes st; currentTime := currentTime st |}.

Definition setCurrentTime (v : Z) (st : AppState) : AppState :=
  {| location := location st; sunTimes := sunTimes st; currentTime := v |}.

(** The state of the first render; [wall] is the [new Date()] that
    initialises [currentTime]. *)
Definition initialState (wall : Z) : AppState :=
  {| location := None; sunTimes := None; currentTime := wall |}.

(** ** Classifier *)

Definition getCurrentLightingCondition (st : AppState) : LightingCondition :=
  match sunTimes st with
  | None => day
  | Some sunTimes =>
    let now := currentTime st in
    let morningGoldenStart := goldenHourStart sunTimes in
    let morningGoldenEnd := goldenHourStart sunTimes + 30 * 60 * 1000 in
    let eveningGoldenStart := sunset sunTimes - 30 * 60 * 1000 in
    let eveningGoldenEnd := sunset sunTimes in
    let morningBlueStart := sunrise sunTimes - 20 * 60 * 1000 in
    let morningBlueEnd := sunrise sunTimes in
    let eveningBlueStart := sunset sunTimes in
    let eveningBlueEnd := sunset sunTimes + 20 * 60 * 1000 in
    if ((now >=? morningGoldenStart) && (now <=? morningGoldenEnd)) ||
       ((now >=? eveningGoldenStart) && (now <=? eveningGoldenEnd))
    then golden
    else if ((now >=? morningBlueStart) && (now <=? morningBlueEnd)) ||
            ((now >=? eveningBlueStart) && (now <=? eveningBlueEnd))
    then blue
    else day
  end.

(** The variant of the tie-break sentence of the specification: the same
    eight boundaries, the blue test placed before the golden test.  This
    definition follows the specification's words, not the source. *)
Definition classifyBlueFirst (st : AppState) : LightingCondition :=
  match sunTimes st with
  | None => day
  | Some sunTimes =>
    let now := currentTime st in
    let morningGoldenStart := goldenHourStart sunTimes in
    let morningGoldenEnd := goldenHourStart sunTimes + 30 * 60 * 1000 in
    let eveningGoldenStart := sunset sunTimes - 30 * 60 * 1000 in
    let eveningGoldenEnd := sunset sunTimes in
    let morningBlueStart := sunrise sunTimes - 20 * 60 * 1000 in
    let morningBlueEnd := sunrise sunTimes in
    let eveningBlueStart := sunset sunTimes in
    let eveningBlueEnd := sunset sunTimes + 20 * 60 * 1000 in
    if ((now >=? morningBlueStart) && (now <=? morningBlueEnd)) ||
       ((now >=? eveningBlueStart) && (now <=? eveningBlueEnd))
    then blue
    else if ((now >=? morningGoldenStart) && (now <=? morningGoldenEnd)) ||
            ((now >=? eveningGoldenStart) && (now <=? eveningGoldenEnd))
    then golden
    else day
  end.

(** ** Countdown formatting *)

(** [Number.prototype.toString] on an integer value: decimal digits, a
    leading minus sign for a negative value, ["0"] for zero. *)
Definition toString (n : Z) : string :=
  NilZero.string_of_int (Z.to_int n).

(** The filler of [padStart]: [padString] repeated and cut to [k]
    characters; [cur] is what is left of the copy being emitted. *)
Fixpoint fillString (k : nat) (cur padString : string) : string :=
  match k with
  | O => ""
  | S k' =>
    match cur with
    | String c rest => String c (fillString k' rest padString)
    | EmptyString =>
      match padString with
      | String c rest => String c (fillString k' rest padString)
      | EmptyString => ""
      end
    end
  end.

(** [String.prototype.padStart]. *)
Definition padStart (targetLength : nat) (padString s : string) : string :=
  if (targetLength <=? String.length s)%nat then s
  else fillString (targetLength - String.length s) padString padString ++ s.

(** [Math.floor(a / b)] is the floor division [a / b] of [Z]; the
    JavaScript remainder [%] truncates towards zero and is [Z.rem]. *)
Definition formatTimeUntil (targetTime : Z) (st : AppState) : string :=
  let diffMs := targetTime - currentTime st in
  if diffMs <=? 0 then "00:00:00"
  else
    let hours := diffMs / (1000 * 60 * 60) in
    let minutes := Z.rem diffMs (1000 * 60 * 60) / (1000 * 60) in
    let seconds := Z.rem diffMs (1000 * 60) / 1000 in
    padStart 2 "0" (toString hours) ++ ":" ++
    padStart 2 "0" (toString minutes) ++ ":" ++
    padStart 2 "0" (toString seconds).

(** ** Next special time *)

(** The array literal [times] of [getNextSpecialTime]. *)
Definition candidateTimes (sunTimes : SunTimes) : list SpecialTime :=
  [ {| type := "Blue Hour (Morning)";
       time := sunrise sunTimes - 20 * 60 * 1000 |};
    {| type := "Golden Hour (Morning)"; time := sunrise sunTimes |};
    {| type := "Golden Hour (Evening)";
       time := sunset sunTimes - 30 * 60 * 1000 |};
    {| type := "Blue Hour (Evening)"; time := sunset sunTimes |} ].

Section Component.

(** [SunCalc.getTimes(date, latitude, longitude)]. *)
Variable getTimes : Z -> Q -> Q -> SunCalc.Times.

(** The instant of [d] after [d.setDate(d.getDate() + 1)]: the same local
    clock time on the next calendar day of the host's time zone. *)
Variable setDateNext : Z -> Z.

(** The effect keyed on [location]; [wall] is the [new Date()] it reads. *)
Definition sunTimesEffect (wall : Z) (st : AppState) : AppState :=
  match location st with
  | Some location =>
    let times := getTimes wall (latitude location) (longitude location) in
    let w := computeWindows times in
    setSunTimes (Some (storedSunTimes times w)) st
  | None => st
  end.

(** [wall] is the [new Date()] read in the roll-over branch; [location!]
    is a property read on [location], which throws when it is [null]. *)
Definition getNextSpecialTime (wall : Z) (st : AppState)
  : Completion (option SpecialTime) :=
  match sunTimes st with
  | None => Normal None
  | Some sunTimes =>
    let now := currentTime st in
    let times := candidateTimes sunTimes in
    let upcomingTimes := filter (fun t => time t >? now) times in
    match upcomingTimes with
    | first :: _ => Normal (Some first)
    | [] =>
      let tomorrow := setDateNext wall in
      match location st with
      | Some location =>
        let tomorrowTimes :=
          getTimes tomorrow (latitude location) (longitude location) in
        Normal (Some {| type := "Blue Hour (Morning)";
                        time := SunCalc.sunrise tomorrowTimes
                                - 20 * 60 * 1000 |})
      | None => TypeError
      end
    end
  end.

End Component.

(** ** Vocabulary of the statements *)

(** [n] minutes, in milliseconds. *)
Definition minutesMs (n : Z) : Z := n * 60000.

(** The provider's answer with sunrise [S] and sunset [T], and the state cell
    the effect stores for it. *)
Definition sunTimesFor (S T : Z) : SunTimes :=
  let times := SunCalc.mkTimes S T in
  storedSunTimes times (computeWindows times).

(** The closed intervals of the classifier, for sunrise [S] and sunset [T]. *)
Definition inGolden (S T now : Z) : Prop :=
  S <= now <= S + minutesMs 30 \/ T - minutesMs 30 <= now <= T.

Definition inBlue (S T now : Z) : Prop :=
  S - minutesMs 20 <= now <= S \/ T <= now <= T + minutesMs 20.

(** The state in which the sun times stored for [S] and [T] are read at
    [now]. *)
Definition stateAt (loc : option Location) (S T now : Z) : AppState :=
  {| location := loc; sunTimes := Some (sunTimesFor S T); currentTime := now |}.

(** A lighting window is the half-open interval [[start, stop)]. *)
Definition inWindow (w : Z * Z) (t : Z) : Prop := fst w <= t < snd w.

Definition disjointWindows (a b : Z * Z) : Prop :=
  forall t, ~ (inWindow a t /\ inWindow b t).

(** The four windows of a derivation: morning blue, morning golden, evening
    golden, evening blue. *)
Definition lightingWindows (w : Windows) : list (Z * Z) :=
  [ (blueHourMorningStart w, blueHourMorningEnd w);
    (goldenHourMorningStart w, goldenHourMorningEnd w);
    (goldenHourEveningStart w, goldenHourEveningEnd w);
    (blueHourEveningStart w, blueHourEveningEnd w) ].

(** A list of events is chronological when every event is no later than
    every event after it. *)
Definition chronological (l : list SpecialTime) : Prop :=
  ForallOrdPairs (fun a b => time a <= time b) l.

(** The number written by a string of decimal digits (leading zeros
    allowed); [None] when the string is empty or has another character. *)
Definition decimalValue (s : string) : option Z :=
  option_map Z.of_uint (NilZero.uint_of_string s).

(** ** A high-latitude day

    A provider for a place shortly before the midnight sun sets in: on every
    UTC day the sun rises at 00:14 and sets at 23:45.  The host's time zone
    is UTC without daylight saving, so the next calendar day is 24 hours
    later. *)
Definition msPerDay : Z := 24 * 60 * 60 * 1000.

Definition clockTime (dayNumber hours mins : Z) : Z :=
  dayNumber * msPerDay + hours * 3600000 + mins * 60000.

Definition longDayGetTimes (date : Z) (lat lng : Q) : SunCalc.Times :=
  let dayNumber := date / msPerDay in
  {| SunCalc.sunrise := clockTime dayNumber 0 14;
     SunCalc.sunset := clockTime dayNumber 23 45 |}.

Definition utcSetDateNext (d : Z) : Z := d + msPerDay.

Definition northCape : Location :=
  {| latitude := 71 # 1; longitude := 25 # 1 |}.

(** Location fixed at noon of day 0; the clock then ticks to [now]. *)
Definition longDayState (now : Z) : AppState :=
  setCurrentTime now
    (sunTimesEffect longDayGetTimes (clockTime 0 12 0)
       (setLocation (Some northCape) (initialState (clockTime 0 11 59)))).

(** ** The component as a whole

    The rest of the component: the timer, the location request and the view.
    [console.error] and the locale-dependent [toLocaleTimeString] texts are
    left out; the view keeps the instants they would print. *)

(** The argument of [toast]. *)
Record Toast : Type := mkToast {
  title : string;
  description : string;
  variant : option string
}.

Definition locationFoundToast : Toast :=
  {| title := "Location found!";
     description := "Golden and blue hour times updated for your location.";
     variant := None |}.

Definition locationErrorToast : Toast :=
  {| title := "Location Error";
     description :=
       "Unable to get your location. Please check your browser settings.";
     variant := Some "destructive" |}.

(** How the position request of [getCurrentLocation] ends:
    [navigator.geolocation] is missing (the [Error] thrown in the [try]
    block), the promise rejects, or it resolves with coordinates. *)
Inductive PositionOutcome : Type :=
| GeolocationUnsupported
| PositionRejected
| PositionResolved (coordsLatitude coordsLongitude : Q).

(** The state cells of [AppState] together with [isLoadingLocation]. *)
Record UiState : Type := mkUiState {
  appState : AppState;
  isLoadingLocation : bool
}.

Definition setIsLoadingLocation (v : bool) (ui : UiState) : UiState :=
  {| appState := appState ui; isLoadingLocation := v |}.

Definition onApp (f : AppState -> AppState) (ui : UiState) : UiState :=
  {| appState := f (appState ui); isLoadingLocation := isLoadingLocation ui |}.

Definition initialUi (wall : Z) : UiState :=
  {| appState := initialState wall; isLoadingLocation := false |}.

(** A [try] block either runs to its end or throws. *)
Inductive Attempt (A : Type) : Type :=
| Completed (a : A)
| Thrown.

Arguments Completed {A} a.
Arguments Thrown {A}.

(** The [try] block of [getCurrentLocation], from the point where the
    position request has ended. *)
Definition getCurrentLocation_try (outcome : PositionOutcome) (ui : UiState)
  : Attempt (UiState * list Toast) :=
  match outcome with
  | GeolocationUnsupported => Thrown
  | PositionRejected => Thrown
  | PositionResolved coordsLatitude coordsLongitude =>
    let newLocation :=
      {| latitude := coordsLatitude; longitude := coordsLongitude |} in
    Completed (onApp (setLocation (Some newLocation)) ui,
               [locationFoundToast])
  end.

(** [try], then [catch], then [finally]. *)
Definition getCurrentLocation_settle (outcome : PositionOutcome) (ui : UiState)
  : UiState * list Toast :=
  let afterCatch :=
    match getCurrentLocation_try outcome ui with
    | Completed r => r
    | Thrown => (ui, [locationErrorToast])
    end in
  (setIsLoadingLocation false (fst afterCatch), snd afterCatch).

(** What happens to the component: the timer fires, a location button is
    clicked (the first statement of [getCurrentLocation]), the position
    request ends, the effect keyed on [location] runs.  React runs that
    effect after a render in which [location] changed; here it may run at
    any time, which only adds behaviours. *)
Inductive Event : Type :=
| TimerFired (wall : Z)
| LocationClicked
| PositionSettled (outcome : PositionOutcome)
| LocationEffectRan (wall : Z).

(** The events that neither set the location nor run the effect. *)
Definition quietEvent (ev : Event) : bool :=
  match ev with
  | TimerFired _ => true
  | LocationClicked => true
  | PositionSettled GeolocationUnsupported => true
  | PositionSettled PositionRejected => true
  | PositionSettled (PositionResolved _ _) => false
  | LocationEffectRan _ => false
  end.

(** The toast an event issues. *)
Definition toastsOf (ev : Event) : list Toast :=
  match ev with
  | PositionSettled (PositionResolved _ _) => [locationFoundToast]
  | PositionSettled _ => [locationErrorToast]
  | _ => []
  end.

(** The texts and instants of the rendered tree. *)
Record CountdownCard : Type := mkCountdownCard {
  heading : string;
  remaining : string;
  eventInstant : Z
}.

Inductive Panel : Type :=
| LocationPrompt (buttonDisabled : bool) (buttonLabel : string)
| Dashboard (clock : Z) (statusLabel : string)
            (countdown : option CountdownCard) (schedule : option (Z * Z)).

Record View : Type := mkView {
  className : string;
  panel : Panel
}.

Section Whole.

Variable getTimes : Z -> Q -> Q -> SunCalc.Times.
Variable setDateNext : Z -> Z.

Definition step (ev : Event) (ui : UiState) : UiState * list Toast :=
  match ev with
  | TimerFired wall => (onApp (setCurrentTime wall) ui, [])
  | LocationClicked => (setIsLoadingLocation true ui, [])
  | PositionSettled outcome => getCurrentLocation_settle outcome ui
  | LocationEffectRan wall => (onApp (sunTimesEffect getTimes wall) ui, [])
  end.

Fixpoint run (evs : list Event) (ui : UiState) : UiState * list Toast :=
  match evs with
  | [] => (ui, [])
  | ev :: rest =>
    let r1 := step ev ui in
    let r2 := run rest (fst r1) in
    (fst r2, (snd r1 ++ snd r2)%list)
  end.

(** The body of the component function from [const lightingCondition] on;
    [wall] is the [new Date()] [getNextSpecialTime] may read. *)
Definition render (wall : Z) (ui : UiState) : Completion View :=
  let st := appState ui in
  let lightingCondition := getCurrentLightingCondition st in
  match getNextSpecialTime getTimes setDateNext wall st with
  | TypeError => TypeError
  | Normal nextTime =>
    Normal
      {| className :=
           "min-h-screen transition-all duration-1000 " ++
           match lightingCondition with
           | golden => "bg-gradient-golden"
           | blue => "bg-gradient-blue"
           | day => "bg-gradient-sunset"
           end;
         panel :=
           match location st with
           | None =>
             LocationPrompt (isLoadingLocation ui)
               (if isLoadingLocation ui then "Getting Location..."
                else "Get Location")
           | Some _ =>
             Dashboard (currentTime st)
               match lightingCondition with
               | golden => "Golden Hour"
               | blue => "Blue Hour"
               | day => "Daylight"
               end
               match nextTime with
               | Some nextTime =>
                 Some {| heading := "Next " ++ type nextTime;
                         remaining := formatTimeUntil (time nextTime) st;
                         eventInstant := time nextTime |}
               | None => None
               end
               match sunTimes st with
               | Some sunTimes => Some (sunrise sunTimes, sunset sunTimes)
               | None => None
               end
           end |}
  end.

End Whole.

(** ** Reading a countdown back *)

(** Whether the character [sep] occurs in [s]. *)
Fixpoint hasChar (sep : ascii) (s : string) : bool :=
  match s with
  | EmptyString => false
  | String c rest => Ascii.eqb c sep || hasChar sep rest
  end.

(** [s.split(sep)] for a one-character separator. *)
Fixpoint splitAt (sep : ascii) (s : string) : list string :=
  match s with
  | EmptyString => [""]
  | String c rest =>
    if Ascii.eqb c sep then "" :: splitAt sep rest
    else
      match splitAt sep rest with
      | field :: fields => String c field :: fields
      | [] => [String c ""]
      end
  end.

(** The whole seconds a countdown text stands for: three decimal fields
    separated by colons, hours, minutes and seconds. *)
Definition countdownSeconds (s : string) : option Z :=
  match splitAt ":" s with
  | [hh; mm; ss] =>
    match decimalValue hh, decimalValue mm, decimalValue ss with
    | Some h, Some m, Some sec => Some (h * 3600 + m * 60 + sec)
    | _, _, _ => None
    end
  | _ => None
  end.

(** The countdown text of a number of whole seconds. *)
Definition countdownText (seconds : Z) : string :=
  padStart 2 "0" (toString (seconds / 3600)) ++ ":" ++
  padStart 2 "0" (toString (seconds / 60 mod 60)) ++ ":" ++
  padStart 2 "0" (toString (seconds mod 60)).

(** The state of the component after [evs], started at [wall0]. *)
Definition stateAfter (getTimes : Z -> Q -> Q -> SunCalc.Times)
  (wall0 : Z) (evs : list Event) : UiState :=
  fst (run getTimes evs (initialUi wall0)).

(** The stored sun times, when present, come with a location and are the
    ones the effect stores for their own sunrise and sunset. *)
Definition coherent (st : AppState) : Prop :=
  forall s, sunTimes st = Some s ->
    location st <> None /\ s = sunTimesFor (sunrise s) (sunset s).

(** A location fix at noon of day 0 at the high-latitude place, then a
    failed update, then a tick at 23:56. *)
Definition fixAtNoon : list Event :=
  [ LocationClicked;
    PositionSettled (PositionResolved (71 # 1) (25 # 1));
    LocationEffectRan (clockTime 0 12 0);
    LocationClicked;
    PositionSettled PositionRejected;
    TimerFired (clockTime 0 23 56) ].

(** * Properties *)

(** ** Proof support *)

Ltac bool_cases :=
  repeat match goal with
         | |- context [?a >=? ?b] => rewrite (Z.geb_leb a b)
         | |- context [?a >? ?b] => rewrite (Z.gtb_ltb a b)
         | |- context [?a <=? ?b] => destruct (Z.leb_spec a b)
         | |- context [?a <? ?b] => destruct (Z.ltb_spec a b)
         end.

Lemma sunTimesFor_fields (S T : Z) :
  sunTimesFor S T =
  {| goldenHourStart := S; goldenHourEnd := T;
     blueHourStart := S - minutesMs 20; blueHourEnd := T + minutesMs 20;
     sunrise := S; sunset := T |}.
Proof. reflexivity. Qed.

(** ** Window derivation *)

(** C1: for a sunrise [S] and a sunset [T] the derivation computes morning
    blue from [S - 20min] to [S], morning golden from [S] to [S + 30min],
    evening golden from [T - 30min] to [T] and evening blue from [T] to
    [T + 20min]. *)
Theorem computeWindows_boundaries (S T : Z) :
  let w := computeWindows (SunCalc.mkTimes S T) in
  (blueHourMorningStart w = S - minutesMs 20 /\ blueHourMorningEnd w = S) /\
  (goldenHourMorningStart w = S /\
   goldenHourMorningEnd w = S + minutesMs 30) /\
  (goldenHourEveningStart w = T - minutesMs 30 /\
   goldenHourEveningEnd w = T) /\
  (blueHourEveningStart w = T /\ blueHourEveningEnd w = T + minutesMs 20).
Proof.
  cbn [computeWindows blueHourMorningStart blueHourMorningEnd
       goldenHourMorningStart goldenHourMorningEnd goldenHourEveningStart
       goldenHourEveningEnd blueHourEveningStart blueHourEveningEnd
       SunCalc.sunrise SunCalc.sunset].
  unfold minutesMs. repeat split; lia.
Qed.

(** ** Classifier *)

Section Classifier.

Variables (S T now : Z) (loc : option Location).

Lemma golden_first_cases :
  (inGolden S T now /\
   getCurrentLightingCondition (stateAt loc S T now) = golden) \/
  (~ inGolden S T now /\ inBlue S T now /\
   getCurrentLightingCondition (stateAt loc S T now) = blue) \/
  (~ inGolden S T now /\ ~ inBlue S T now /\
   getCurrentLightingCondition (stateAt loc S T now) = day).
Proof.
  unfold inGolden, inBlue, stateAt, getCurrentLightingCondition, minutesMs.
  cbn [sunTimes currentTime sunTimesFor storedSunTimes computeWindows
       goldenHourStart sunrise sunset goldenHourMorningStart
       SunCalc.sunrise SunCalc.sunset].
  bool_cases; cbn [andb orb]; first [left; split; [lia | reflexivity]
    | right; left; split; [lia | split; [lia | reflexivity]]
    | right; right; split; [lia | split; [lia | reflexivity]]].
Qed.

Lemma blue_first_cases :
  (inBlue S T now /\ classifyBlueFirst (stateAt loc S T now) = blue) \/
  (~ inBlue S T now /\ inGolden S T now /\
   classifyBlueFirst (stateAt loc S T now) = golden) \/
  (~ inBlue S T now /\ ~ inGolden S T now /\
   classifyBlueFirst (stateAt loc S T now) = day).
Proof.
  unfold inGolden, inBlue, stateAt, classifyBlueFirst, minutesMs.
  cbn [sunTimes currentTime sunTimesFor storedSunTimes computeWindows
       goldenHourStart sunrise sunset goldenHourMorningStart
       SunCalc.sunrise SunCalc.sunset].
  bool_cases; cbn [andb orb]; first [left; split; [lia | reflexivity]
    | right; left; split; [lia | split; [lia | reflexivity]]
    | right; right; split; [lia | split; [lia | reflexivity]]].
Qed.

End Classifier.

(** C2: the classifier answers golden exactly on the closed intervals
    [[S, S + 30min]] and [[T - 30min, T]], blue exactly on the closed
    intervals [[S - 20min, S]] and [[T, T + 20min]] outside golden, and day
    everywhere else. *)
Theorem classifier_closed_intervals (S T now : Z) (loc : option Location) :
  let st := stateAt loc S T now in
  (getCurrentLightingCondition st = golden <->
   S <= now <= S + minutesMs 30 \/ T - minutesMs 30 <= now <= T) /\
  (getCurrentLightingCondition st = blue <->
   (S - minutesMs 20 <= now <= S \/ T <= now <= T + minutesMs 20) /\
   ~ (S <= now <= S + minutesMs 30 \/ T - minutesMs 30 <= now <= T)) /\
  (getCurrentLightingCondition st = day <->
   ~ (S <= now <= S + minutesMs 30 \/ T - minutesMs 30 <= now <= T) /\
   ~ (S - minutesMs 20 <= now <= S \/ T <= now <= T + minutesMs 20)).
Proof.
  intros st. subst st.
  change (S <= now <= S + minutesMs 30 \/ T - minutesMs 30 <= now <= T)
    with (inGolden S T now).
  change (S - minutesMs 20 <= now <= S \/ T <= now <= T + minutesMs 20)
    with (inBlue S T now).
  destruct (golden_first_cases S T now loc) as [[G E] | [[G [B E]] | [G [B E]]]];
    rewrite E;
    (split; [|split]); split; intros; try discriminate; try reflexivity;
    tauto.
Qed.

(** C7, as stated, fails: at the boundary instant [now = S] of a day with
    sunrise 06:00 and sunset 18:00 the source answers golden and the
    blue-first variant answers blue. *)
Lemma blue_first_differs_at_sunrise :
  let S := 6 * 3600000 in
  let T := 18 * 3600000 in
  let st := stateAt None S T S in
  minutesMs 50 < T - S /\
  getCurrentLightingCondition st = golden /\
  classifyBlueFirst st = blue /\
  classifyBlueFirst st <> getCurrentLightingCondition st.
Proof.
  cbv zeta. split; [reflexivity|].
  split; [reflexivity|]. split; [reflexivity|].
  vm_compute. discriminate.
Qed.

(** C7, amended: when [T - S > 50min], checking blue before golden gives the
    same answer at every instant other than [S] and [T]; at [S] and at [T],
    which belong to a golden and to a blue closed interval, the source
    answers golden and the blue-first variant answers blue. *)
Theorem blue_first_agrees_off_boundaries (S T now : Z) (loc : option Location) :
  minutesMs 50 < T - S ->
  let st := stateAt loc S T now in
  (now <> S -> now <> T ->
   classifyBlueFirst st = getCurrentLightingCondition st) /\
  (now = S \/ now = T ->
   getCurrentLightingCondition st = golden /\ classifyBlueFirst st = blue).
Proof.
  intros Hsep st.
  destruct (golden_first_cases S T now loc) as [[G E] | [[G [B E]] | [G [B E]]]];
    destruct (blue_first_cases S T now loc) as [[B' E'] | [[B' [G' E']] | [B' [G' E']]]];
    subst st; rewrite E, E'; unfold inGolden, inBlue, minutesMs in *;
    (split; [intros HS HT | intros HST]);
    try reflexivity; try (split; reflexivity); exfalso; lia.
Qed.

Lemma blue_first_agrees_off_boundaries_witness :
  minutesMs 50 < 18 * 3600000 - 6 * 3600000 /\
  classifyBlueFirst
    (stateAt None (6 * 3600000) (18 * 3600000)
       (6 * 3600000 + minutesMs 10)) =
  getCurrentLightingCondition
    (stateAt None (6 * 3600000) (18 * 3600000)
       (6 * 3600000 + minutesMs 10)).
Proof.
  split; [reflexivity|].
  refine (proj1 (blue_first_agrees_off_boundaries
                   (6 * 3600000) (18 * 3600000)
                   (6 * 3600000 + minutesMs 10) None _) _ _);
    [reflexivity | unfold minutesMs; lia | unfold minutesMs; lia].
Defined.

(** ** Shared boundaries and overlap *)

(** C6, as stated, fails: with sunrise 06:00 and sunset 06:55 the gap exceeds
    50 minutes, yet 06:27 lies in morning golden [[06:00, 06:30)] and in
    evening golden [[06:25, 06:55)]. *)
Lemma golden_windows_overlap_at_55_minutes :
  let S := 6 * 3600000 in
  let T := 6 * 3600000 + minutesMs 55 in
  let w := computeWindows (SunCalc.mkTimes S T) in
  minutesMs 50 < T - S /\
  inWindow (goldenHourMorningStart w, goldenHourMorningEnd w)
           (S + minutesMs 27) /\
  inWindow (goldenHourEveningStart w, goldenHourEveningEnd w)
           (S + minutesMs 27) /\
  ~ ForallOrdPairs disjointWindows (lightingWindows w).
Proof.
  cbv zeta. split; [reflexivity|].
  assert (Hm : inWindow (21600000, 23400000) 23220000)
    by (unfold inWindow; cbn [fst snd]; lia).
  assert (He : inWindow (23100000, 24900000) 23220000)
    by (unfold inWindow; cbn [fst snd]; lia).
  split; [exact Hm|]. split; [exact He|].
  intro H.
  inversion H as [|a l _ H2]; subst.
  inversion H2 as [|a' l' H3 _]; subst.
  inversion H3 as [|x l'' Hd _]; subst.
  exact (Hd 23220000 (conj Hm He)).
Qed.

(** C6, amended: morning blue ends where morning golden starts, at [S];
    evening golden ends where evening blue starts, at [T]; and whenever
    [T - S >= 60min] the four half-open windows are pairwise disjoint. *)
Theorem windows_adjacent_and_disjoint (S T : Z) :
  let w := computeWindows (SunCalc.mkTimes S T) in
  (blueHourMorningEnd w = goldenHourMorningStart w /\
   goldenHourMorningStart w = S) /\
  (goldenHourEveningEnd w = blueHourEveningStart w /\
   blueHourEveningStart w = T) /\
  (minutesMs 60 <= T - S ->
   ForallOrdPairs disjointWindows (lightingWindows w)).
Proof.
  cbv zeta. split; [split; reflexivity|]. split; [split; reflexivity|].
  unfold minutesMs. intros Hsep.
  unfold lightingWindows, computeWindows;
    cbn [blueHourMorningStart blueHourMorningEnd goldenHourMorningStart
         goldenHourMorningEnd goldenHourEveningStart goldenHourEveningEnd
         blueHourEveningStart blueHourEveningEnd
         SunCalc.sunrise SunCalc.sunset].
  repeat constructor; unfold disjointWindows, inWindow; cbn [fst snd];
    intros; lia.
Qed.

Lemma windows_adjacent_and_disjoint_witness :
  minutesMs 60 <= 18 * 3600000 - 6 * 3600000 /\
  ForallOrdPairs disjointWindows
    (lightingWindows
       (computeWindows (SunCalc.mkTimes (6 * 3600000) (18 * 3600000)))).
Proof.
  split; [discriminate|].
  apply (windows_adjacent_and_disjoint (6 * 3600000) (18 * 3600000)).
  discriminate.
Defined.

(** The bound of 60 minutes is the least one for a sunset after sunrise:
    below it the two golden windows share an instant. *)
Lemma golden_windows_meet_below_60_minutes (S T : Z) :
  0 < T - S < minutesMs 60 ->
  let w := computeWindows (SunCalc.mkTimes S T) in
  ~ disjointWindows (goldenHourMorningStart w, goldenHourMorningEnd w)
                    (goldenHourEveningStart w, goldenHourEveningEnd w).
Proof.
  intros Hsep w Hd. unfold minutesMs in Hsep.
  apply (Hd (Z.max S (T - 30 * 60 * 1000))).
  unfold inWindow, w; cbn [fst snd computeWindows goldenHourMorningStart
    goldenHourMorningEnd goldenHourEveningStart goldenHourEveningEnd
    SunCalc.sunrise SunCalc.sunset]. lia.
Qed.

(** ** The effect that stores the sun times *)

Lemma storedSunTimes_eta (times : SunCalc.Times) :
  storedSunTimes times (computeWindows times) =
  sunTimesFor (SunCalc.sunrise times) (SunCalc.sunset times).
Proof. destruct times; reflexivity. Qed.

Lemma sunTimesEffect_located getTimes wall st loc :
  location st = Some loc ->
  sunTimesEffect getTimes wall st =
  setSunTimes
    (Some (sunTimesFor
             (SunCalc.sunrise (getTimes wall (latitude loc) (longitude loc)))
             (SunCalc.sunset (getTimes wall (latitude loc) (longitude loc)))))
    st.
Proof.
  intros Hloc. unfold sunTimesEffect. rewrite Hloc.
  now rewrite storedSunTimes_eta.
Qed.

(** C8: the derivation is a function of the provider's answer alone.  Two
    runs of the effect at the same location, from any two states and at any
    two readings of the clock for which the provider answers alike, store the
    same sun times; running it again changes nothing; and it writes no state
    cell other than [sunTimes]. *)
Theorem sunTimesEffect_deterministic
  (getTimes : Z -> Q -> Q -> SunCalc.Times) (wall1 wall2 : Z)
  (st1 st2 : AppState) (loc : Location) :
  location st1 = Some loc ->
  location st2 = Some loc ->
  getTimes wall1 (latitude loc) (longitude loc) =
  getTimes wall2 (latitude loc) (longitude loc) ->
  let times := getTimes wall1 (latitude loc) (longitude loc) in
  sunTimes (sunTimesEffect getTimes wall1 st1) =
  sunTimes (sunTimesEffect getTimes wall2 st2) /\
  sunTimes (sunTimesEffect getTimes wall1 st1) =
  Some (sunTimesFor (SunCalc.sunrise times) (SunCalc.sunset times)) /\
  sunTimesEffect getTimes wall1 (sunTimesEffect getTimes wall1 st1) =
  sunTimesEffect getTimes wall1 st1 /\
  location (sunTimesEffect getTimes wall1 st1) = location st1 /\
  currentTime (sunTimesEffect getTimes wall1 st1) = currentTime st1.
Proof.
  intros H1 H2 Hsame times.
  rewrite (sunTimesEffect_located getTimes wall1 st1 loc H1).
  rewrite (sunTimesEffect_located getTimes wall2 st2 loc H2).
  rewrite <- Hsame. fold times.
  repeat split.
  rewrite (sunTimesEffect_located getTimes wall1 _ loc)
    by (cbn [setSunTimes location]; exact H1).
  reflexivity.
Qed.

Lemma sunTimesEffect_deterministic_witness :
  sunTimes
    (sunTimesEffect longDayGetTimes (clockTime 0 12 0)
       (setLocation (Some northCape) (initialState (clockTime 0 11 59)))) =
  sunTimes
    (sunTimesEffect longDayGetTimes (clockTime 0 13 0)
       (longDayState (clockTime 0 12 30))).
Proof.
  refine (proj1 (sunTimesEffect_deterministic longDayGetTimes
                   (clockTime 0 12 0) (clockTime 0 13 0)
                   (setLocation (Some northCape)
                      (initialState (clockTime 0 11 59)))
                   (longDayState (clockTime 0 12 30)) northCape _ _ _));
    reflexivity.
Defined.

(** ** Before the first location fix *)

(** C10: while [sunTimes] is [null] the classifier answers day and the next
    special time is [null], whatever the clock, the location cell and the
    provider are. *)
Theorem no_sunTimes_defaults
  (getTimes : Z -> Q -> Q -> SunCalc.Times) (setDateNext : Z -> Z)
  (wall now : Z) (loc : option Location) :
  let st := mkAppState loc None now in
  getCurrentLightingCondition st = day /\
  getNextSpecialTime getTimes setDateNext wall st = Normal None.
Proof. split; reflexivity. Qed.

(** ** Next special time *)

Lemma filter_first {A : Type} (f : A -> bool) (before after : list A) (c : A) :
  Forall (fun b => f b = false) before ->
  f c = true ->
  filter f (before ++ c :: after)%list = c :: filter f after.
Proof.
  intros Hb Hc. induction Hb as [|b before Hfb _ IH]; simpl.
  - now rewrite Hc.
  - now rewrite Hfb.
Qed.

Lemma filter_none {A : Type} (f : A -> bool) (l : list A) :
  Forall (fun b => f b = false) l -> filter f l = [].
Proof.
  intros Hl. induction Hl as [|b l Hfb _ IH]; simpl.
  - reflexivity.
  - now rewrite Hfb.
Qed.

Lemma not_upcoming (now : Z) (l : list SpecialTime) :
  Forall (fun c => time c <= now) l ->
  Forall (fun c => (time c >? now) = false) l.
Proof.
  apply Forall_impl. intros c Hc. rewrite Z.gtb_ltb. now apply Z.ltb_ge.
Qed.

Lemma candidateTimes_sunTimesFor (S T : Z) :
  candidateTimes (sunTimesFor S T) =
  [ mkSpecialTime "Blue Hour (Morning)" (S - minutesMs 20);
    mkSpecialTime "Golden Hour (Morning)" S;
    mkSpecialTime "Golden Hour (Evening)" (T - minutesMs 30);
    mkSpecialTime "Blue Hour (Evening)" T ].
Proof. reflexivity. Qed.

(** C3, as stated, fails: with sunrise 06:00 and sunset 06:05 the third
    candidate (05:35) is earlier than the first (05:40), so the list is not
    chronological; at 05:30 the source returns the first element of the
    list, 05:40, although the candidate at 05:35 comes sooner. *)
Lemma candidates_not_chronological_short_day :
  let S := 6 * 3600000 in
  let T := 6 * 3600000 + minutesMs 5 in
  let now := 5 * 3600000 + minutesMs 30 in
  let st := stateAt (Some northCape) S T now in
  candidateTimes (sunTimesFor S T) =
    [ mkSpecialTime "Blue Hour (Morning)" 20400000;
      mkSpecialTime "Golden Hour (Morning)" 21600000;
      mkSpecialTime "Golden Hour (Evening)" 20100000;
      mkSpecialTime "Blue Hour (Evening)" 21900000 ] /\
  ~ chronological (candidateTimes (sunTimesFor S T)) /\
  getNextSpecialTime longDayGetTimes utcSetDateNext now st =
    Normal (Some (mkSpecialTime "Blue Hour (Morning)" 20400000)).
Proof.
  cbv zeta. split; [reflexivity|]. split; [|reflexivity].
  intro H. inversion H as [|a l Ha _]; subst.
  inversion Ha as [|b l1 _ Hb]; subst.
  inversion Hb as [|c l2 Hc _]; subst.
  cbn [time] in Hc. vm_compute in Hc. now apply Hc.
Qed.

Lemma chronological_candidates (S T : Z) :
  chronological (candidateTimes (sunTimesFor S T)) <->
  minutesMs 30 <= T - S.
Proof.
  rewrite candidateTimes_sunTimesFor. unfold chronological, minutesMs.
  split.
  - intros H. inversion H as [|a l _ Ht]; subst.
    inversion Ht as [|b l1 Hb _]; subst.
    inversion Hb as [|c l2 Hc _]; subst.
    cbn [time] in Hc. lia.
  - intros Hsep. repeat constructor; cbn [time]; lia.
Qed.

(** C3, amended: the candidates are, in list order, [S - 20min], [S],
    [T - 30min] and [T]; this list is chronological exactly when
    [T - S >= 30min]; the result is the first element of the list, in list
    order, that is strictly later than [now]; when none is, the result is
    labelled as the morning blue hour and its instant is the provider's
    sunrise for the next calendar day less 20 minutes. *)
Theorem nextSpecialTime_first_upcoming
  (getTimes : Z -> Q -> Q -> SunCalc.Times) (setDateNext : Z -> Z)
  (wall S T now : Z) (loc : Location) :
  let sun := sunTimesFor S T in
  let st := stateAt (Some loc) S T now in
  let next := getNextSpecialTime getTimes setDateNext wall st in
  candidateTimes sun =
    [ mkSpecialTime "Blue Hour (Morning)" (S - minutesMs 20);
      mkSpecialTime "Golden Hour (Morning)" S;
      mkSpecialTime "Golden Hour (Evening)" (T - minutesMs 30);
      mkSpecialTime "Blue Hour (Evening)" T ] /\
  (chronological (candidateTimes sun) <-> minutesMs 30 <= T - S) /\
  (forall before c after,
      candidateTimes sun = (before ++ c :: after)%list ->
      Forall (fun b => time b <= now) before ->
      now < time c ->
      next = Normal (Some c)) /\
  (Forall (fun c => time c <= now) (candidateTimes sun) ->
   next =
   Normal (Some (mkSpecialTime "Blue Hour (Morning)"
                   (SunCalc.sunrise
                      (getTimes (setDateNext wall)
                         (latitude loc) (longitude loc))
                    - minutesMs 20)))).
Proof.
  intros sun st next.
  split; [apply candidateTimes_sunTimesFor|].
  split; [apply chronological_candidates|].
  subst next st. unfold getNextSpecialTime, stateAt.
  cbn [sunTimes currentTime location]. fold sun. split.
  - intros before c after Hsplit Hbefore Hc.
    rewrite Hsplit, filter_first.
    + reflexivity.
    + now apply not_upcoming.
    + rewrite Z.gtb_ltb. now apply Z.ltb_lt.
  - intros Hall. rewrite filter_none by now apply not_upcoming.
    reflexivity.
Qed.

Lemma nextSpecialTime_first_upcoming_witness :
  getNextSpecialTime longDayGetTimes utcSetDateNext (6 * 3600000)
    (stateAt (Some northCape) (6 * 3600000) (18 * 3600000)
       (5 * 3600000 + minutesMs 50)) =
  Normal (Some (mkSpecialTime "Golden Hour (Morning)" (6 * 3600000))).
Proof.
  refine (proj1 (proj2 (proj2
            (nextSpecialTime_first_upcoming longDayGetTimes utcSetDateNext
               (6 * 3600000) (6 * 3600000) (18 * 3600000)
               (5 * 3600000 + minutesMs 50) northCape)))
            [mkSpecialTime "Blue Hour (Morning)"
               (6 * 3600000 - minutesMs 20)]
            (mkSpecialTime "Golden Hour (Morning)" (6 * 3600000))
            [mkSpecialTime "Golden Hour (Evening)"
               (18 * 3600000 - minutesMs 30);
             mkSpecialTime "Blue Hour (Evening)" (18 * 3600000)]
            _ _ _).
  - reflexivity.
  - constructor; [cbn [time]; unfold minutesMs; lia | constructor].
  - reflexivity.
Defined.

Lemma upcoming_none_iff (now : Z) (l : list SpecialTime) :
  filter (fun t => time t >? now) l = [] <->
  Forall (fun c => time c <= now) l.
Proof.
  induction l as [|c l IH]; simpl.
  - split; [constructor | reflexivity].
  - rewrite Z.gtb_ltb. destruct (Z.ltb_spec now (time c)) as [Hlt|Hge].
    + split; [discriminate|]. intros H. inversion H; subst. lia.
    + rewrite IH. split.
      * intros H. now constructor.
      * intros H. now inversion H.
Qed.

Lemma upcoming_filter_sound (now : Z) (l : list SpecialTime)
  (first : SpecialTime) (rest : list SpecialTime) :
  filter (fun t => time t >? now) l = first :: rest ->
  In first l /\ now < time first.
Proof.
  intros Hf.
  assert (Hin : In first (filter (fun t => time t >? now) l))
    by (rewrite Hf; now left).
  apply filter_In in Hin. destruct Hin as [Hin Hgt].
  rewrite Z.gtb_ltb in Hgt. apply Z.ltb_lt in Hgt. now split.
Qed.

(** The same-day path keeps the promise of a future event: whatever it
    returns has passed the test [time > now] of the filter. *)
Lemma same_day_event_after_now
  (getTimes : Z -> Q -> Q -> SunCalc.Times) (setDateNext : Z -> Z)
  (wall : Z) (st : AppState) (sun : SunTimes) :
  sunTimes st = Some sun ->
  Exists (fun c => currentTime st < time c) (candidateTimes sun) ->
  exists ev,
    getNextSpecialTime getTimes setDateNext wall st = Normal (Some ev) /\
    In ev (candidateTimes sun) /\
    currentTime st < time ev.
Proof.
  intros Hsun Hex. unfold getNextSpecialTime. rewrite Hsun.
  destruct (filter (fun t => time t >? currentTime st) (candidateTimes sun))
    as [|first rest] eqn:Hfilter.
  - apply upcoming_none_iff in Hfilter. apply Exists_exists in Hex.
    destruct Hex as [c [Hin Hc]]. rewrite Forall_forall in Hfilter.
    specialize (Hfilter c Hin). lia.
  - exists first. split; [reflexivity|].
    exact (upcoming_filter_sound _ _ _ _ Hfilter).
Qed.

(** C4: the code departs from the claim in the roll-over branch, which
    returns the next day's sunrise less 20 minutes without the comparison
    with [now] that the same-day path makes.  At a place where the sun rises
    at 00:14 and sets at 23:45 every day, with the location fixed at noon
    and the clock now at 23:56, the four candidates have passed; the next
    day's sunrise is at 00:14, and the event returned is at 23:54 of the
    current day, two minutes before [now]: no event strictly later than
    [now] is returned. *)
Lemma rollover_event_before_now :
  let now := clockTime 0 23 56 in
  let st := longDayState now in
  location st = Some northCape /\
  sunTimes st = Some (sunTimesFor (clockTime 0 0 14) (clockTime 0 23 45)) /\
  currentTime st = now /\
  getNextSpecialTime longDayGetTimes utcSetDateNext now st =
    Normal (Some (mkSpecialTime "Blue Hour (Morning)" (clockTime 0 23 54))) /\
  clockTime 0 23 54 < now /\
  ~ (exists ev,
        getNextSpecialTime longDayGetTimes utcSetDateNext now st =
          Normal (Some ev) /\
        currentTime st < time ev).
Proof.
  cbv zeta. repeat (split; [reflexivity|]).
  intros [ev [Hev Hlt]]. vm_compute in Hev.
  injection Hev as <-. vm_compute in Hlt. discriminate.
Qed.

(** ** Countdown *)

(** *** Padding and decimal digits *)

Lemma string_length_append (s1 s2 : string) :
  String.length (s1 ++ s2) = (String.length s1 + String.length s2)%nat.
Proof.
  induction s1 as [|c s1 IH]; simpl; congruence.
Qed.

Lemma fillString_length (k : nat) (cur padString : string) :
  padString <> "" ->
  String.length (fillString k cur padString) = k.
Proof.
  intros Hpad. revert cur.
  induction k as [|k IH]; intros cur; cbn [fillString String.length].
  - reflexivity.
  - destruct cur as [|c rest].
    + destruct padString as [|c rest]; [congruence|].
      cbn [String.length]. now rewrite IH.
    + cbn [String.length]. now rewrite IH.
Qed.

Lemma padStart_length (k : nat) (padString s : string) :
  padString <> "" ->
  String.length (padStart k padString s) = Nat.max k (String.length s).
Proof.
  intros Hpad. unfold padStart.
  destruct (Nat.leb_spec k (String.length s)).
  - lia.
  - rewrite string_length_append, fillString_length by assumption. lia.
Qed.

Lemma padStart_long (k : nat) (padString s : string) :
  (k <= String.length s)%nat -> padStart k padString s = s.
Proof.
  intros Hk. unfold padStart.
  now destruct (Nat.leb_spec k (String.length s)); [|lia].
Qed.

Lemma padStart_one_digit (c : ascii) :
  padStart 2 "0" (String c "") = String "0" (String c "").
Proof. reflexivity. Qed.

Lemma toString_value (n : Z) :
  0 <= n -> decimalValue (toString n) = Some n.
Proof.
  intros Hn. destruct n as [|p|p]; [reflexivity| |lia].
  unfold decimalValue, toString. cbn [Z.to_int NilZero.string_of_int].
  rewrite NilZero.usu by apply DecimalPos.Unsigned.to_uint_nonnil.
  cbn [option_map]. unfold Z.of_uint.
  now rewrite DecimalPos.Unsigned.of_to.
Qed.

Lemma toString_nonempty (n : Z) : 0 <= n -> toString n <> "".
Proof.
  intros Hn E. generalize (toString_value n Hn). rewrite E. discriminate.
Qed.

Lemma decimalValue_zero_prefix (s : string) :
  s <> "" -> decimalValue (String "0" s) = decimalValue s.
Proof.
  intros Hs. destruct s as [|c s]; [congruence|].
  unfold decimalValue, NilZero.uint_of_string.
  change (NilEmpty.uint_of_string (String "0" (String c s)))
    with (uint_of_char "0" (NilEmpty.uint_of_string (String c s))).
  destruct (NilEmpty.uint_of_string (String c s)) as [d|]; reflexivity.
Qed.

Lemma padStart2_value (n : Z) :
  0 <= n -> decimalValue (padStart 2 "0" (toString n)) = Some n.
Proof.
  intros Hn. generalize (toString_value n Hn) (toString_nonempty n Hn).
  destruct (toString n) as [|c [|c' s]]; intros Hv Hne.
  - congruence.
  - rewrite padStart_one_digit, decimalValue_zero_prefix; [exact Hv|].
    discriminate.
  - rewrite padStart_long; [exact Hv|]. cbn [String.length]. lia.
Qed.

(** A value of at least ten is written with at least two digits. *)
Lemma toString_two_digits (n : Z) :
  10 <= n -> (2 <= String.length (toString n))%nat.
Proof.
  intros Hn. generalize (toString_value n ltac:(lia)).
  destruct (toString n) as [|c [|c' s]] eqn:E; intros Hv.
  - discriminate.
  - exfalso. unfold decimalValue, NilZero.uint_of_string in Hv.
    cbn [NilEmpty.uint_of_string] in Hv.
    unfold uint_of_char in Hv.
    destruct c as [[] [] [] [] [] [] [] []]; cbn in Hv;
      try discriminate; injection Hv as Hv; lia.
  - cbn [String.length]. lia.
Qed.

(** A value below sixty is written with at most two digits. *)
Lemma padStart2_length_below_60 (n : Z) :
  0 <= n < 60 -> String.length (padStart 2 "0" (toString n)) = 2%nat.
Proof.
  intros Hn.
  assert (Hnat : forall k : nat, (k < 60)%nat ->
            String.length (padStart 2 "0" (toString (Z.of_nat k))) = 2%nat).
  { intros k Hk. do 60 (destruct k as [|k]; [reflexivity|]). lia. }
  rewrite <- (Z2Nat.id n) by lia. apply Hnat. lia.
Qed.

(** A value below ten is written with one digit and padded with one zero. *)
Lemma padStart2_below_10 (n : Z) :
  0 <= n < 10 ->
  padStart 2 "0" (toString n) = String "0" (toString n).
Proof.
  intros Hn.
  assert (Hnat : forall k : nat, (k < 10)%nat ->
            padStart 2 "0" (toString (Z.of_nat k)) =
            String "0" (toString (Z.of_nat k))).
  { intros k Hk. do 10 (destruct k as [|k]; [reflexivity|]). lia. }
  rewrite <- (Z2Nat.id n) by lia. apply Hnat. lia.
Qed.

(** A value below one hundred fills exactly two characters. *)
Lemma padStart2_length_below_100 (n : Z) :
  0 <= n < 100 -> String.length (padStart 2 "0" (toString n)) = 2%nat.
Proof.
  intros Hn.
  assert (Hnat : forall k : nat, (k < 100)%nat ->
            String.length (padStart 2 "0" (toString (Z.of_nat k))) = 2%nat).
  { intros k Hk. do 100 (destruct k as [|k]; [reflexivity|]). lia. }
  rewrite <- (Z2Nat.id n) by lia. apply Hnat. lia.
Qed.

Lemma string_of_uint_length (d : uint) :
  String.length (NilEmpty.string_of_uint d) = nb_digits d.
Proof.
  induction d; cbn [NilEmpty.string_of_uint String.length nb_digits];
    congruence.
Qed.

Lemma to_int_of_N (n : N) : Z.to_int (Z.of_N n) = Pos (N.to_uint n).
Proof. now destruct n. Qed.

(** No string of decimal digits that reads as [n] is shorter than
    [toString n]. *)
Lemma toString_shortest (n : Z) (s : string) :
  decimalValue s = Some n ->
  (String.length (toString n) <= String.length s)%nat.
Proof.
  unfold decimalValue.
  destruct (NilZero.uint_of_string s) as [d|] eqn:Hd; [|discriminate].
  cbn [option_map]. intros Hn. injection Hn as <-.
  assert (Hnil : d <> Nil)
    by (intros ->; exact (NilZero.uint_of_string_nonnil s Hd)).
  apply NilZero.sus in Hd. subst s.
  unfold toString, Z.of_uint.
  rewrite to_int_of_N, DecimalPos.Unsigned.to_of.
  cbn [NilZero.string_of_int].
  assert (Hlen : forall u, u <> Nil ->
            String.length (NilZero.string_of_uint u) = nb_digits u).
  { intros u Hu. destruct u; try congruence;
      apply (string_of_uint_length (_ _)). }
  rewrite (Hlen (unorm d) (unorm_nonnil d)), (Hlen d Hnil).
  now apply nb_digits_unorm.
Qed.

Lemma formatTimeUntil_future (targetTime : Z) (st : AppState) :
  currentTime st < targetTime ->
  let diffMs := targetTime - currentTime st in
  formatTimeUntil targetTime st =
  padStart 2 "0" (toString (diffMs / 3600000)) ++ ":" ++
  padStart 2 "0" (toString (diffMs / 60000 mod 60)) ++ ":" ++
  padStart 2 "0" (toString (diffMs / 1000 mod 60)).
Proof.
  intros Hlt diffMs. unfold formatTimeUntil. fold diffMs.
  assert (Hpos : 0 < diffMs) by (unfold diffMs; lia).
  destruct (Z.leb_spec diffMs 0) as [Hle|_]; [lia|].
  rewrite !Z.rem_mod_nonneg by lia.
  change (1000 * 60 * 60) with 3600000. change (1000 * 60) with 60000.
  assert (Hm : diffMs mod 3600000 / 60000 = diffMs / 60000 mod 60)
    by (Z.div_mod_to_equations; lia).
  assert (Hs : diffMs mod 60000 / 1000 = diffMs / 1000 mod 60)
    by (Z.div_mod_to_equations; lia).
  now rewrite Hm, Hs.
Qed.

(** C5: a target at or before [now] gives ["00:00:00"]; a later target gives
    three fields separated by colons that read, in decimal, the whole hours
    of the remaining time (the full quotient, not reduced modulo 24), the
    whole minutes within the hour and the whole seconds within the minute.
    Minutes and seconds fill exactly two characters.  The hours field is the
    one digit behind one zero below ten, fills exactly two characters below
    one hundred, is the plain decimal writing from ten on, and in every case
    is as short as a string of at least two digits reading as the hours can
    be.  3661 seconds give ["01:01:01"]. *)
Theorem formatTimeUntil_countdown
  (target now : Z) (loc : option Location) (sun : option SunTimes) :
  let st := mkAppState loc sun now in
  let diffMs := target - now in
  (target <= now -> formatTimeUntil target st = "00:00:00") /\
  (now < target ->
   exists hh mm ss : string,
     formatTimeUntil target st = hh ++ ":" ++ mm ++ ":" ++ ss /\
     decimalValue hh = Some (diffMs / 3600000) /\
     decimalValue mm = Some (diffMs / 60000 mod 60) /\
     decimalValue ss = Some (diffMs / 1000 mod 60) /\
     String.length mm = 2%nat /\
     String.length ss = 2%nat /\
     (2 <= String.length hh)%nat /\
     (10 <= diffMs / 3600000 -> hh = toString (diffMs / 3600000)) /\
     (diffMs / 3600000 < 10 ->
      hh = String "0" (toString (diffMs / 3600000))) /\
     (diffMs / 3600000 < 100 -> String.length hh = 2%nat) /\
     (forall s : string,
         decimalValue s = Some (diffMs / 3600000) ->
         (2 <= String.length s)%nat ->
         (String.length hh <= String.length s)%nat) /\
     0 <= diffMs - (diffMs / 3600000 * 3600000 +
                    diffMs / 60000 mod 60 * 60000 +
                    diffMs / 1000 mod 60 * 1000) < 1000) /\
  (target = now + 3661 * 1000 -> formatTimeUntil target st = "01:01:01").
Proof.
  intros st diffMs. split; [|split].
  - intros Hle. unfold formatTimeUntil. cbn [currentTime st].
    destruct (Z.leb_spec (target - now) 0); [reflexivity|lia].
  - intros Hlt.
    assert (Hpos : 0 < diffMs) by (unfold diffMs; lia).
    exists (padStart 2 "0" (toString (diffMs / 3600000))),
           (padStart 2 "0" (toString (diffMs / 60000 mod 60))),
           (padStart 2 "0" (toString (diffMs / 1000 mod 60))).
    split; [exact (formatTimeUntil_future target st Hlt)|].
    split; [apply padStart2_value; apply Z.div_pos; lia|].
    split; [apply padStart2_value; apply Z.mod_pos_bound; lia|].
    split; [apply padStart2_value; apply Z.mod_pos_bound; lia|].
    split; [apply padStart2_length_below_60; apply Z.mod_pos_bound; lia|].
    split; [apply padStart2_length_below_60; apply Z.mod_pos_bound; lia|].
    split; [rewrite padStart_length by discriminate; lia|].
    split; [intros Hten; apply padStart_long;
            now apply toString_two_digits|].
    assert (Hh : 0 <= diffMs / 3600000) by (apply Z.div_pos; lia).
    split; [intros Hone; apply padStart2_below_10; lia|].
    split; [intros Htwo; apply padStart2_length_below_100; lia|].
    split.
    { intros s Hs Hlen. rewrite padStart_length by discriminate.
      pose proof (toString_shortest _ s Hs). lia. }
    Z.div_mod_to_equations; lia.
  - intros ->. unfold formatTimeUntil. cbn [currentTime st].
    replace (now + 3661 * 1000 - now) with 3661000 by lia. reflexivity.
Qed.

Lemma formatTimeUntil_countdown_witness :
  formatTimeUntil 1000 (mkAppState None None 1000) = "00:00:00" /\
  formatTimeUntil (1000 + 3661 * 1000) (mkAppState None None 1000) =
  "01:01:01" /\
  (exists hh mm ss : string,
    formatTimeUntil (7 + 100 * 3600000 + 59999) (mkAppState None None 7) =
    hh ++ ":" ++ mm ++ ":" ++ ss /\
    decimalValue hh = Some 100 /\
    decimalValue mm = Some 0 /\
    decimalValue ss = Some 59) /\
  (exists hh mm ss : string,
    formatTimeUntil (7 + 2 * 3600000 + 5000) (mkAppState None None 7) =
    hh ++ ":" ++ mm ++ ":" ++ ss /\
    hh = "02" /\
    String.length mm = 2%nat /\
    String.length ss = 2%nat).
Proof.
  split;
    [exact (proj1 (formatTimeUntil_countdown 1000 1000 None None)
              (Z.le_refl 1000))|].
  split;
    [exact (proj2 (proj2 (formatTimeUntil_countdown (1000 + 3661 * 1000)
                            1000 None None)) eq_refl)|].
  destruct (proj1 (proj2 (formatTimeUntil_countdown
                            (7 + 100 * 3600000 + 59999) 7 None None))
              eq_refl)
    as [hh [mm [ss [Hfmt [Hh [Hm [Hs _]]]]]]].
  split; [exists hh, mm, ss; repeat split; assumption|].
  destruct (proj1 (proj2 (formatTimeUntil_countdown
                            (7 + 2 * 3600000 + 5000) 7 None None))
              eq_refl)
    as [hh2 [mm2 [ss2 [Hfmt2 [_ [_ [_ [Hlm [Hls [_ [_ [Hpad _]]]]]]]]]]]].
  exists hh2, mm2, ss2.
  split; [exact Hfmt2|]. split; [exact (Hpad eq_refl)|].
  split; assumption.
Defined.

(** C9: a target strictly later than [now] by less than one second is
    formatted as ["00:00:00"], the very string given for a target that has
    passed. *)
Theorem formatTimeUntil_final_second
  (target now past : Z) (loc : option Location) (sun : option SunTimes) :
  0 < target - now < 1000 ->
  past <= now ->
  let st := mkAppState loc sun now in
  formatTimeUntil target st = "00:00:00" /\
  formatTimeUntil target st = formatTimeUntil past st.
Proof.
  intros Hlast Hpast st.
  assert (Hfmt : formatTimeUntil target st = "00:00:00").
  { rewrite formatTimeUntil_future by (cbn [currentTime st]; lia).
    cbn [currentTime st].
    replace ((target - now) / 3600000) with 0
      by (Z.div_mod_to_equations; lia).
    replace ((target - now) / 60000 mod 60) with 0
      by (Z.div_mod_to_equations; lia).
    replace ((target - now) / 1000 mod 60) with 0
      by (Z.div_mod_to_equations; lia).
    reflexivity. }
  split; [exact Hfmt|]. rewrite Hfmt.
  unfold formatTimeUntil. cbn [currentTime st].
  destruct (Z.leb_spec (past - now) 0); [reflexivity|lia].
Qed.

Lemma formatTimeUntil_final_second_witness :
  0 < 1999 - 1000 < 1000 /\
  formatTimeUntil 1999 (mkAppState None None 1000) = "00:00:00".
Proof.
  split; [lia|].
  refine (proj1 (formatTimeUntil_final_second 1999 1000 1000 None None _ _));
    lia.
Defined.


(** * Further properties of the component *)

(** ** When the next special time throws *)

(** X1: the next special time throws exactly when the sun times are
    present, none of the four candidates is later than [currentTime], and
    the location is [null]. *)
Theorem getNextSpecialTime_throws_iff
  (getTimes : Z -> Q -> Q -> SunCalc.Times) (setDateNext : Z -> Z)
  (wall : Z) (st : AppState) :
  getNextSpecialTime getTimes setDateNext wall st = TypeError <->
  location st = None /\
  exists sun, sunTimes st = Some sun /\
              Forall (fun c => time c <= currentTime st) (candidateTimes sun).
Proof.
  unfold getNextSpecialTime.
  destruct (sunTimes st) as [sun|].
  - destruct (filter (fun t => time t >? currentTime st) (candidateTimes sun))
      as [|first rest] eqn:Hf.
    + apply upcoming_none_iff in Hf.
      destruct (location st) as [loc|].
      * split; [discriminate | intros [H _]; discriminate].
      * split; [intros _ | reflexivity].
        split; [reflexivity|]. now exists sun.
    + split; [discriminate|]. intros [_ [sun' [Hs Hall]]].
      injection Hs as <-. apply upcoming_none_iff in Hall.
      rewrite Hall in Hf. discriminate.
  - split; [discriminate|]. intros [_ [sun [Hs _]]]. discriminate.
Qed.

(** ** Invariants of the state *)

Lemma coherent_initial (wall : Z) : coherent (initialState wall).
Proof. intros s Hs. discriminate. Qed.

Lemma coherent_effect getTimes wall st :
  coherent st -> coherent (sunTimesEffect getTimes wall st).
Proof.
  intros Hst. unfold sunTimesEffect.
  destruct (location st) as [loc|] eqn:Hloc; [|exact Hst].
  intros s Hs. cbn [setSunTimes sunTimes location] in *.
  injection Hs as <-. rewrite Hloc. split; [discriminate|].
  now rewrite storedSunTimes_eta.
Qed.

Lemma coherent_step getTimes ev ui :
  coherent (appState ui) -> coherent (appState (fst (step getTimes ev ui))).
Proof.
  intros Hui. destruct ev as [wall| |outcome|wall]; cbn [step fst].
  - exact Hui.
  - exact Hui.
  - destruct outcome as [| |lat lng]; cbn; try exact Hui.
    intros s Hs. destruct (Hui s Hs) as [_ Heq].
    split; [discriminate | exact Heq].
  - cbn [onApp appState]. now apply coherent_effect.
Qed.

Lemma coherent_run getTimes evs :
  forall ui,
    coherent (appState ui) ->
    coherent (appState (fst (run getTimes evs ui))).
Proof.
  induction evs as [|ev evs IH]; intros ui Hui; cbn [run fst].
  - exact Hui.
  - apply IH. now apply coherent_step.
Qed.

(** X2: after any sequence of events from the first render, stored sun
    times come with a location, so the next special time never throws,
    whatever the clock and the provider are. *)
Theorem reachable_never_throws
  (getTimes : Z -> Q -> Q -> SunCalc.Times) (setDateNext : Z -> Z)
  (wall0 wall : Z) (evs : list Event) :
  let st := appState (stateAfter getTimes wall0 evs) in
  (sunTimes st <> None -> location st <> None) /\
  getNextSpecialTime getTimes setDateNext wall st <> TypeError.
Proof.
  intros st.
  assert (Hco : coherent st)
    by (apply coherent_run; apply coherent_initial).
  split.
  - destruct (sunTimes st) as [s|] eqn:Hs; [|congruence].
    intros _. exact (proj1 (Hco s Hs)).
  - intros Hthrow. unfold getNextSpecialTime in Hthrow.
    destruct (sunTimes st) as [s|] eqn:Hs; [|discriminate].
    destruct (filter _ _); [|discriminate].
    destruct (location st) eqn:Hloc; [discriminate|].
    exact (proj1 (Hco s Hs) Hloc).
Qed.

(** X3: after any sequence of events from the first render, the classifier
    reads the stored sunrise [S] and sunset [T] as closed intervals: golden
    on [[S, S + 30min]] and [[T - 30min, T]], blue on [[S - 20min, S]] and
    [[T, T + 20min]] outside golden, day elsewhere. *)
Theorem reachable_classifier_intervals
  (getTimes : Z -> Q -> Q -> SunCalc.Times)
  (wall0 : Z) (evs : list Event) (s : SunTimes) :
  let st := appState (stateAfter getTimes wall0 evs) in
  sunTimes st = Some s ->
  let S := sunrise s in
  let T := sunset s in
  let now := currentTime st in
  (getCurrentLightingCondition st = golden <-> inGolden S T now) /\
  (getCurrentLightingCondition st = blue <->
   inBlue S T now /\ ~ inGolden S T now) /\
  (getCurrentLightingCondition st = day <->
   ~ inGolden S T now /\ ~ inBlue S T now).
Proof.
  intros st Hs S T now.
  assert (Hco : coherent st)
    by (apply coherent_run; apply coherent_initial).
  destruct (Hco s Hs) as [_ Heq]. fold S T in Heq.
  assert (Hst : st = stateAt (location st) S T now).
  { unfold stateAt. rewrite <- Heq, <- Hs. now destruct st. }
  rewrite Hst.
  destruct (golden_first_cases S T now (location st))
    as [[G E] | [[G [B E]] | [G [B E]]]];
    rewrite E; (split; [|split]); split; intros; try discriminate;
    try reflexivity; tauto.
Qed.

Lemma reachable_classifier_intervals_witness :
  getCurrentLightingCondition
    (appState (stateAfter longDayGetTimes (clockTime 0 11 59) fixAtNoon))
  = blue.
Proof.
  apply (proj2 (proj1 (proj2
           (reachable_classifier_intervals longDayGetTimes
              (clockTime 0 11 59) fixAtNoon
              (sunTimesFor (clockTime 0 0 14) (clockTime 0 23 45))
              eq_refl)))).
  unfold inBlue, inGolden, minutesMs. vm_compute.
  split; [right; split; discriminate|].
  intros [[_ H] | [_ H]]; now apply H.
Defined.

(** ** What the events keep *)

Lemma run_app getTimes (evs1 evs2 : list Event) :
  forall ui,
    run getTimes (evs1 ++ evs2) ui =
    (fst (run getTimes evs2 (fst (run getTimes evs1 ui))),
     (snd (run getTimes evs1 ui) ++
      snd (run getTimes evs2 (fst (run getTimes evs1 ui))))%list).
Proof.
  induction evs1 as [|ev evs1 IH]; intros ui.
  - cbn [List.app run fst snd]. now destruct (run getTimes evs2 ui).
  - cbn [List.app run fst snd]. rewrite IH. cbn [fst snd].
    now rewrite app_assoc.
Qed.

Lemma step_keeps_present getTimes ev ui :
  (location (appState ui) <> None ->
   location (appState (fst (step getTimes ev ui))) <> None) /\
  (sunTimes (appState ui) <> None ->
   sunTimes (appState (fst (step getTimes ev ui))) <> None).
Proof.
  destruct ev as [wall| |outcome|wall]; cbn [step fst].
  - split; intros H; exact H.
  - split; intros H; exact H.
  - destruct outcome; cbn; split; intros H; try exact H; discriminate.
  - cbn [onApp appState]. unfold sunTimesEffect.
    destruct (location (appState ui)) eqn:Hloc;
      cbn [setSunTimes location sunTimes].
    + rewrite Hloc. split; intros; discriminate.
    + rewrite Hloc. split; intros H; exact H.
Qed.

(** X4: no event clears the location or the sun times: once a position has
    been obtained the component keeps one, and once sun times have been
    stored it keeps some, whatever happens next. *)
Theorem location_and_sun_times_never_cleared
  (getTimes : Z -> Q -> Q -> SunCalc.Times) (evs : list Event) (ui : UiState) :
  (location (appState ui) <> None ->
   location (appState (fst (run getTimes evs ui))) <> None) /\
  (sunTimes (appState ui) <> None ->
   sunTimes (appState (fst (run getTimes evs ui))) <> None).
Proof.
  revert ui. induction evs as [|ev evs IH]; intros ui; cbn [run fst].
  - split; intros H; exact H.
  - destruct (step_keeps_present getTimes ev ui) as [Hl Hs].
    destruct (IH (fst (step getTimes ev ui))) as [IHl IHs].
    split; intros H; auto.
Qed.

Lemma location_and_sun_times_never_cleared_witness :
  location (appState (fst (run longDayGetTimes
                        [PositionSettled PositionRejected;
                         TimerFired (clockTime 1 0 0)]
                        (stateAfter longDayGetTimes 0 fixAtNoon)))) <> None.
Proof.
  apply (proj1 (location_and_sun_times_never_cleared longDayGetTimes
                  [PositionSettled PositionRejected;
                   TimerFired (clockTime 1 0 0)]
                  (stateAfter longDayGetTimes 0 fixAtNoon))).
  discriminate.
Defined.

Lemma step_toasts getTimes ev ui :
  snd (step getTimes ev ui) = toastsOf ev.
Proof.
  destruct ev as [wall| |outcome|wall]; try reflexivity.
  now destruct outcome.
Qed.

(** X5: the toasts issued over any sequence of events are, in order, one
    per settled position request and nothing else: the success toast for a
    resolved request, the destructive error toast for a rejected one or for
    missing geolocation; and the event that settles a request always leaves
    [isLoadingLocation] false. *)
Theorem one_toast_per_settled_request
  (getTimes : Z -> Q -> Q -> SunCalc.Times) (evs : list Event) (ui : UiState) :
  snd (run getTimes evs ui) = flat_map toastsOf evs /\
  forall outcome,
    isLoadingLocation
      (fst (run getTimes (evs ++ [PositionSettled outcome]) ui)) = false.
Proof.
  split.
  - revert ui. induction evs as [|ev evs IH]; intros ui; cbn [run snd flat_map].
    + reflexivity.
    + now rewrite step_toasts, IH.
  - intros outcome. rewrite run_app. cbn [fst run step].
    now destruct outcome.
Qed.

Lemma quiet_step getTimes ev ui :
  quietEvent ev = true ->
  location (appState (fst (step getTimes ev ui))) = location (appState ui) /\
  sunTimes (appState (fst (step getTimes ev ui))) = sunTimes (appState ui).
Proof.
  destruct ev as [wall| |outcome|wall]; cbn [quietEvent]; intros Hq;
    try discriminate; try (split; reflexivity).
  destruct outcome; try discriminate; split; reflexivity.
Qed.

Lemma quiet_run getTimes evs :
  forall ui,
    forallb quietEvent evs = true ->
    location (appState (fst (run getTimes evs ui))) = location (appState ui) /\
    sunTimes (appState (fst (run getTimes evs ui))) = sunTimes (appState ui).
Proof.
  induction evs as [|ev evs IH]; intros ui Hq; cbn [run fst].
  - split; reflexivity.
  - cbn [forallb] in Hq. apply andb_true_iff in Hq. destruct Hq as [Hev Hq].
    destruct (quiet_step getTimes ev ui Hev) as [Hl Hs].
    destruct (IH (fst (step getTimes ev ui)) Hq) as [IHl IHs].
    split; congruence.
Qed.

(** X6: ticks of the timer, clicks and failed position requests never
    refresh the location or the sun times.  So once the clock has passed
    both [S + 30min] and [T + 20min] of the stored sunrise and sunset, the
    classifier answers day after every such sequence, however long the
    component stays open. *)
Theorem quiet_events_keep_sun_times
  (getTimes : Z -> Q -> Q -> SunCalc.Times) (evs : list Event) (ui : UiState) :
  forallb quietEvent evs = true ->
  let ui' := fst (run getTimes evs ui) in
  location (appState ui') = location (appState ui) /\
  sunTimes (appState ui') = sunTimes (appState ui) /\
  forall S T,
    sunTimes (appState ui) = Some (sunTimesFor S T) ->
    S + minutesMs 30 < currentTime (appState ui') ->
    T + minutesMs 20 < currentTime (appState ui') ->
    getCurrentLightingCondition (appState ui') = day.
Proof.
  intros Hq ui'. destruct (quiet_run getTimes evs ui Hq) as [Hl Hs].
  fold ui' in Hl, Hs. split; [exact Hl|]. split; [exact Hs|].
  intros S T Hsun HS HT.
  assert (Hst : appState ui' = stateAt (location (appState ui')) S T
                            (currentTime (appState ui'))).
  { unfold stateAt. rewrite <- Hsun, <- Hs. now destruct (appState ui'). }
  rewrite Hst.
  destruct (golden_first_cases S T (currentTime (appState ui'))
              (location (appState ui')))
    as [[G E] | [[G [B E]] | [G [B E]]]];
    unfold inGolden, inBlue, minutesMs in *; [lia | lia | exact E].
Qed.

Lemma quiet_events_keep_sun_times_witness :
  getCurrentLightingCondition
    (appState (fst (run longDayGetTimes
                 [TimerFired (clockTime 1 0 6);
                  LocationClicked;
                  PositionSettled GeolocationUnsupported;
                  TimerFired (clockTime 1 12 0)]
                 (stateAfter longDayGetTimes 0 fixAtNoon)))) = day.
Proof.
  refine (proj2 (proj2
            (quiet_events_keep_sun_times longDayGetTimes
               [TimerFired (clockTime 1 0 6);
                LocationClicked;
                PositionSettled GeolocationUnsupported;
                TimerFired (clockTime 1 12 0)]
               (stateAfter longDayGetTimes 0 fixAtNoon) eq_refl))
            (clockTime 0 0 14) (clockTime 0 23 45) eq_refl _ _);
    reflexivity.
Defined.

(** ** Order of the next special times *)

Lemma nextSpecialTime_chain getTimes setDateNext wall S T now loc :
  getNextSpecialTime getTimes setDateNext wall (stateAt (Some loc) S T now) =
  if now <? S - minutesMs 20
  then Normal (Some (mkSpecialTime "Blue Hour (Morning)" (S - minutesMs 20)))
  else if now <? S
  then Normal (Some (mkSpecialTime "Golden Hour (Morning)" S))
  else if now <? T - minutesMs 30
  then Normal (Some (mkSpecialTime "Golden Hour (Evening)" (T - minutesMs 30)))
  else if now <? T
  then Normal (Some (mkSpecialTime "Blue Hour (Evening)" T))
  else Normal (Some (mkSpecialTime "Blue Hour (Morning)"
                       (SunCalc.sunrise
                          (getTimes (setDateNext wall)
                             (latitude loc) (longitude loc))
                        - minutesMs 20))).
Proof.
  unfold getNextSpecialTime, stateAt.
  cbn [sunTimes currentTime location]. rewrite candidateTimes_sunTimesFor.
  cbn [filter time]. rewrite !Z.gtb_ltb.
  destruct (now <? S - minutesMs 20); [reflexivity|].
  destruct (now <? S); [reflexivity|].
  destruct (now <? T - minutesMs 30); [reflexivity|].
  destruct (now <? T); reflexivity.
Qed.

Lemma candidate_cases (S T : Z) (c : SpecialTime) :
  In c (candidateTimes (sunTimesFor S T)) ->
  time c = S - minutesMs 20 \/ time c = S \/
  time c = T - minutesMs 30 \/ time c = T.
Proof.
  rewrite candidateTimes_sunTimesFor.
  intros [<- | [<- | [<- | [<- | []]]]]; cbn [time]; auto.
Qed.

Lemma upcoming_candidate_before_sunset (S T now : Z) :
  minutesMs 30 <= T - S ->
  Exists (fun c => now < time c) (candidateTimes (sunTimesFor S T)) ->
  now < T.
Proof.
  intros Hsep Hex. apply Exists_exists in Hex.
  destruct Hex as [c [Hin Hc]]. apply candidate_cases in Hin.
  unfold minutesMs in *. lia.
Qed.

(** X7: on a day with [T - S >= 30min], while a candidate is still to come,
    the event returned is the earliest of the candidates that are strictly
    later than [now]. *)
Theorem nextSpecialTime_earliest_upcoming
  (getTimes : Z -> Q -> Q -> SunCalc.Times) (setDateNext : Z -> Z)
  (wall S T now : Z) (loc : Location) :
  minutesMs 30 <= T - S ->
  Exists (fun c => now < time c) (candidateTimes (sunTimesFor S T)) ->
  exists ev,
    getNextSpecialTime getTimes setDateNext wall (stateAt (Some loc) S T now)
    = Normal (Some ev) /\
    In ev (candidateTimes (sunTimesFor S T)) /\
    now < time ev /\
    forall c, In c (candidateTimes (sunTimesFor S T)) ->
              now < time c -> time ev <= time c.
Proof.
  intros Hsep Hex.
  pose proof (upcoming_candidate_before_sunset S T now Hsep Hex) as HT.
  rewrite nextSpecialTime_chain. rewrite candidateTimes_sunTimesFor.
  unfold minutesMs in *.
  destruct (Z.ltb_spec now (S - 20 * 60000));
    [|destruct (Z.ltb_spec now S);
      [|destruct (Z.ltb_spec now (T - 30 * 60000));
        [|destruct (Z.ltb_spec now T); [|lia]]]];
    eexists; (split; [reflexivity|]); cbn [time In];
    (split; [tauto|]); (split; [lia|]);
    intros c [<- | [<- | [<- | [<- | []]]]]; cbn [time]; lia.
Qed.

Lemma nextSpecialTime_earliest_upcoming_witness :
  exists ev,
    getNextSpecialTime longDayGetTimes utcSetDateNext (6 * 3600000)
      (stateAt (Some northCape) (6 * 3600000) (18 * 3600000) (7 * 3600000))
    = Normal (Some ev) /\
    time ev = 18 * 3600000 - minutesMs 30.
Proof.
  destruct (nextSpecialTime_earliest_upcoming longDayGetTimes utcSetDateNext
              (6 * 3600000) (6 * 3600000) (18 * 3600000) (7 * 3600000)
              northCape)
    as [ev [Hev [Hin [Hlt Hmin]]]].
  - discriminate.
  - rewrite candidateTimes_sunTimesFor.
    apply Exists_cons_tl, Exists_cons_tl, Exists_cons_hd. reflexivity.
  - exists ev. split; [exact Hev|].
    vm_compute in Hev. injection Hev as <-. reflexivity.
Defined.

(** X8: on a day with [T - S >= 30min] the events returned never go back in
    time as the clock advances: for [now1 <= now2], with a candidate still
    to come at [now2], the event at [now1] is no later than the event at
    [now2], and strictly earlier once [now2] has reached it. *)
Theorem nextSpecialTime_monotone
  (getTimes : Z -> Q -> Q -> SunCalc.Times) (setDateNext : Z -> Z)
  (wall1 wall2 S T now1 now2 : Z) (loc : Location) (ev1 ev2 : SpecialTime) :
  minutesMs 30 <= T - S ->
  now1 <= now2 ->
  Exists (fun c => now2 < time c) (candidateTimes (sunTimesFor S T)) ->
  getNextSpecialTime getTimes setDateNext wall1 (stateAt (Some loc) S T now1)
  = Normal (Some ev1) ->
  getNextSpecialTime getTimes setDateNext wall2 (stateAt (Some loc) S T now2)
  = Normal (Some ev2) ->
  time ev1 <= time ev2 /\ (time ev1 <= now2 -> time ev1 < time ev2).
Proof.
  intros Hsep Hnow Hex.
  pose proof (upcoming_candidate_before_sunset S T now2 Hsep Hex) as HT.
  rewrite !nextSpecialTime_chain. unfold minutesMs in *.
  destruct (Z.ltb_spec now1 (S - 20 * 60000));
    [|destruct (Z.ltb_spec now1 S);
      [|destruct (Z.ltb_spec now1 (T - 30 * 60000));
        [|destruct (Z.ltb_spec now1 T); [|lia]]]];
    (destruct (Z.ltb_spec now2 (S - 20 * 60000));
     [|destruct (Z.ltb_spec now2 S);
       [|destruct (Z.ltb_spec now2 (T - 30 * 60000));
         [|destruct (Z.ltb_spec now2 T); [|lia]]]]);
    intros Hev1 Hev2; injection Hev1 as <-; injection Hev2 as <-;
    cbn [time]; lia.
Qed.

Lemma nextSpecialTime_monotone_witness :
  6 * 3600000 <= 18 * 3600000 - minutesMs 30 /\
  (6 * 3600000 <= 7 * 3600000 -> 6 * 3600000 < 18 * 3600000 - minutesMs 30).
Proof.
  refine (nextSpecialTime_monotone longDayGetTimes utcSetDateNext
            0 0 (6 * 3600000) (18 * 3600000)
            (5 * 3600000 + minutesMs 50) (7 * 3600000) northCape
            (mkSpecialTime "Golden Hour (Morning)" (6 * 3600000))
            (mkSpecialTime "Golden Hour (Evening)"
               (18 * 3600000 - minutesMs 30))
            _ _ _ _ _).
  - discriminate.
  - discriminate.
  - rewrite candidateTimes_sunTimesFor.
    apply Exists_cons_tl, Exists_cons_tl, Exists_cons_hd. reflexivity.
  - reflexivity.
  - reflexivity.
Defined.

(** X9: the course of a day with [T - S >= 60min].  Before [S - 20min]:
    day, next is the morning blue hour.  From [S - 20min] up to [S]: blue,
    next is the morning golden hour at [S].  From [S] up to [T - 30min]:
    golden until [S + 30min] and day after, next is the evening golden
    hour.  From [T - 30min] up to [T]: golden, next is the evening blue hour
    at [T].  From [T] on: golden at [T], blue until [T + 20min], day after,
    and the next event is the next day's morning blue hour. *)
Theorem normal_day_timeline
  (getTimes : Z -> Q -> Q -> SunCalc.Times) (setDateNext : Z -> Z)
  (wall S T now : Z) (loc : Location) :
  minutesMs 60 <= T - S ->
  let st := stateAt (Some loc) S T now in
  let condition := getCurrentLightingCondition st in
  let next := getNextSpecialTime getTimes setDateNext wall st in
  (now < S - minutesMs 20 ->
   condition = day /\
   next = Normal (Some (mkSpecialTime "Blue Hour (Morning)"
                          (S - minutesMs 20)))) /\
  (S - minutesMs 20 <= now < S ->
   condition = blue /\
   next = Normal (Some (mkSpecialTime "Golden Hour (Morning)" S))) /\
  (S <= now < T - minutesMs 30 ->
   condition = (if now <=? S + minutesMs 30 then golden else day) /\
   next = Normal (Some (mkSpecialTime "Golden Hour (Evening)"
                          (T - minutesMs 30)))) /\
  (T - minutesMs 30 <= now < T ->
   condition = golden /\
   next = Normal (Some (mkSpecialTime "Blue Hour (Evening)" T))) /\
  (T <= now ->
   condition = (if now =? T then golden
                else if now <=? T + minutesMs 20 then blue else day) /\
   next = Normal (Some (mkSpecialTime "Blue Hour (Morning)"
                          (SunCalc.sunrise
                             (getTimes (setDateNext wall)
                                (latitude loc) (longitude loc))
                           - minutesMs 20)))).
Proof.
  intros Hsep st condition next. subst condition next st.
  rewrite nextSpecialTime_chain.
  destruct (golden_first_cases S T now (Some loc))
    as [[G E] | [[G [B E]] | [G [B E]]]];
    rewrite E; clear E; unfold inGolden, inBlue, minutesMs in *;
    (split; [|split; [|split; [|split]]]); intros Hrow; split;
    repeat match goal with
           | |- context [?a <? ?b] => destruct (Z.ltb_spec a b)
           | |- context [?a <=? ?b] => destruct (Z.leb_spec a b)
           | |- context [?a =? ?b] => destruct (Z.eqb_spec a b)
           end;
    try reflexivity; exfalso; lia.
Qed.

Lemma normal_day_timeline_witness :
  getCurrentLightingCondition
    (stateAt (Some northCape) (6 * 3600000) (18 * 3600000)
       (5 * 3600000 + minutesMs 50)) = blue /\
  getNextSpecialTime longDayGetTimes utcSetDateNext 0
    (stateAt (Some northCape) (6 * 3600000) (18 * 3600000)
       (5 * 3600000 + minutesMs 50)) =
  Normal (Some (mkSpecialTime "Golden Hour (Morning)" (6 * 3600000))).
Proof.
  refine (proj1 (proj2
            (normal_day_timeline longDayGetTimes utcSetDateNext 0
               (6 * 3600000) (18 * 3600000) (5 * 3600000 + minutesMs 50)
               northCape _)) _).
  - discriminate.
  - unfold minutesMs. lia.
Defined.

(** ** The countdown read back *)

Lemma splitAt_free (sep : ascii) (s : string) :
  hasChar sep s = false -> splitAt sep s = [s].
Proof.
  induction s as [|c s IH]; cbn [hasChar splitAt]; [reflexivity|].
  intros H. apply orb_false_iff in H. destruct H as [Hc Hs].
  now rewrite Hc, (IH Hs).
Qed.

Lemma splitAt_field (sep : ascii) (a b : string) :
  hasChar sep a = false ->
  splitAt sep (a ++ String sep b) = a :: splitAt sep b.
Proof.
  induction a as [|c a IH]; cbn [hasChar append splitAt].
  - intros _. now rewrite Ascii.eqb_refl.
  - intros H. apply orb_false_iff in H. destruct H as [Hc Ha].
    now rewrite Hc, (IH Ha).
Qed.

Lemma digits_have_no_colon (s : string) :
  forall d, NilEmpty.uint_of_string s = Some d -> hasChar ":" s = false.
Proof.
  induction s as [|c s IH]; intros d Hd; cbn [hasChar]; [reflexivity|].
  cbn [NilEmpty.uint_of_string] in Hd.
  destruct (NilEmpty.uint_of_string s) as [d'|]; [|discriminate].
  rewrite (IH d' eq_refl), orb_false_r.
  destruct (Ascii.eqb_spec c ":") as [->|]; [discriminate|reflexivity].
Qed.

Lemma decimal_field_has_no_colon (s : string) (v : Z) :
  decimalValue s = Some v -> hasChar ":" s = false.
Proof.
  unfold decimalValue, NilZero.uint_of_string.
  destruct s as [|c s]; [discriminate|].
  destruct (NilEmpty.uint_of_string (String c s)) as [d|] eqn:Hd;
    [|discriminate].
  intros _. exact (digits_have_no_colon (String c s) d Hd).
Qed.

Lemma countdownSeconds_fields (hh mm ss : string) (h m sec : Z) :
  decimalValue hh = Some h ->
  decimalValue mm = Some m ->
  decimalValue ss = Some sec ->
  countdownSeconds (hh ++ ":" ++ mm ++ ":" ++ ss) =
  Some (h * 3600 + m * 60 + sec).
Proof.
  intros Hh Hm Hs. unfold countdownSeconds.
  change (hh ++ ":" ++ mm ++ ":" ++ ss)
    with (hh ++ String ":" (mm ++ String ":" ss)).
  rewrite (splitAt_field ":" hh _ (decimal_field_has_no_colon hh h Hh)).
  rewrite (splitAt_field ":" mm _ (decimal_field_has_no_colon mm m Hm)).
  rewrite (splitAt_free ":" ss (decimal_field_has_no_colon ss sec Hs)).
  now rewrite Hh, Hm, Hs.
Qed.

Lemma countdownSeconds_text (q : Z) :
  0 <= q -> countdownSeconds (countdownText q) = Some q.
Proof.
  intros Hq. unfold countdownText.
  rewrite (countdownSeconds_fields _ _ _ (q / 3600) (q / 60 mod 60)
             (q mod 60)).
  - f_equal. Z.div_mod_to_equations. lia.
  - apply padStart2_value. apply Z.div_pos; lia.
  - apply padStart2_value. apply Z.mod_pos_bound. lia.
  - apply padStart2_value. apply Z.mod_pos_bound. lia.
Qed.

Lemma formatTimeUntil_text (targetTime : Z) (st : AppState) :
  formatTimeUntil targetTime st =
  countdownText (Z.max 0 ((targetTime - currentTime st) / 1000)).
Proof.
  destruct (Z.le_gt_cases targetTime (currentTime st)) as [Hle|Hlt].
  - unfold formatTimeUntil.
    destruct (Z.leb_spec (targetTime - currentTime st) 0); [|lia].
    replace (Z.max 0 ((targetTime - currentTime st) / 1000)) with 0
      by (Z.div_mod_to_equations; lia).
    reflexivity.
  - rewrite formatTimeUntil_future by exact Hlt. unfold countdownText.
    set (d := targetTime - currentTime st).
    assert (Hd : 0 < d) by (unfold d; lia).
    replace (Z.max 0 (d / 1000)) with (d / 1000)
      by (Z.div_mod_to_equations; lia).
    replace (d / 1000 / 3600) with (d / 3600000)
      by (Z.div_mod_to_equations; lia).
    replace (d / 1000 / 60) with (d / 60000)
      by (Z.div_mod_to_equations; lia).
    reflexivity.
Qed.

(** X10: a countdown text reads back, field by field, as the whole seconds
    that remain, a target in the past counting as zero. *)
Theorem formatTimeUntil_reads_back (targetTime : Z) (st : AppState) :
  countdownSeconds (formatTimeUntil targetTime st) =
  Some (Z.max 0 ((targetTime - currentTime st) / 1000)).
Proof.
  rewrite formatTimeUntil_text. apply countdownSeconds_text. lia.
Qed.

(** X11: two targets are shown with the same countdown text exactly when
    the same number of whole seconds remains to them, a target in the past
    counting as zero. *)
Theorem formatTimeUntil_same_text_iff (target1 target2 : Z) (st : AppState) :
  formatTimeUntil target1 st = formatTimeUntil target2 st <->
  Z.max 0 ((target1 - currentTime st) / 1000) =
  Z.max 0 ((target2 - currentTime st) / 1000).
Proof.
  rewrite !formatTimeUntil_text. split.
  - intros Heq.
    assert (H : countdownSeconds
                  (countdownText
                     (Z.max 0 ((target1 - currentTime st) / 1000))) =
                countdownSeconds
                  (countdownText
                     (Z.max 0 ((target2 - currentTime st) / 1000))))
      by now rewrite Heq.
    rewrite !countdownSeconds_text in H by lia. now injection H.
  - now intros ->.
Qed.

(** X12: the countdown text is ["00:00:00"] exactly when less than one
    second remains to the target. *)
Theorem formatTimeUntil_zero_iff (targetTime : Z) (st : AppState) :
  formatTimeUntil targetTime st = "00:00:00" <->
  targetTime - currentTime st < 1000.
Proof.
  rewrite formatTimeUntil_text.
  set (q := Z.max 0 ((targetTime - currentTime st) / 1000)).
  assert (Hq : 0 <= q) by (unfold q; lia).
  split.
  - intros Heq.
    assert (H : countdownSeconds (countdownText q) =
                countdownSeconds "00:00:00") by now rewrite Heq.
    rewrite countdownSeconds_text in H by exact Hq.
    change (countdownSeconds "00:00:00") with (Some 0) in H.
    injection H as H. unfold q in H. Z.div_mod_to_equations. lia.
  - intros Hlt. replace q with 0; [reflexivity|].
    unfold q. Z.div_mod_to_equations. lia.
Qed.

(** ** The view *)

Lemma nextSpecialTime_located getTimes setDateNext wall st s loc :
  sunTimes st = Some s ->
  location st = Some loc ->
  exists ev, getNextSpecialTime getTimes setDateNext wall st = Normal (Some ev).
Proof.
  intros Hs Hloc. unfold getNextSpecialTime. rewrite Hs, Hloc.
  destruct (filter _ _); eexists; reflexivity.
Qed.

(** X13: after any sequence of events from the first render, rendering does
    not throw.  Without a location the view is the location prompt on the
    daylight background, its button disabled exactly while a request is
    loading.  With a location it is the dashboard, on which the countdown
    card and the schedule card are both present when sun times are stored
    and both absent otherwise; the card's text is the countdown to the
    instant it names. *)
Theorem render_after_events
  (getTimes : Z -> Q -> Q -> SunCalc.Times) (setDateNext : Z -> Z)
  (wall0 wall : Z) (evs : list Event) :
  let ui := stateAfter getTimes wall0 evs in
  exists v,
    render getTimes setDateNext wall ui = Normal v /\
    match panel v with
    | LocationPrompt buttonDisabled _ =>
      location (appState ui) = None /\
      buttonDisabled = isLoadingLocation ui /\
      className v =
      "min-h-screen transition-all duration-1000 bg-gradient-sunset"
    | Dashboard clock _ countdown schedule =>
      location (appState ui) <> None /\
      clock = currentTime (appState ui) /\
      (countdown = None <-> sunTimes (appState ui) = None) /\
      (schedule = None <-> sunTimes (appState ui) = None) /\
      (forall card, countdown = Some card ->
                    remaining card =
                    formatTimeUntil (eventInstant card) (appState ui))
    end.
Proof.
  intros ui.
  assert (Hco : coherent (appState ui))
    by (apply coherent_run; apply coherent_initial).
  unfold render.
  destruct (sunTimes (appState ui)) as [s|] eqn:Hs.
  - destruct (location (appState ui)) as [loc|] eqn:Hloc;
      [|exfalso; exact (proj1 (Hco s Hs) Hloc)].
    destruct (nextSpecialTime_located getTimes setDateNext wall
                (appState ui) s loc Hs Hloc) as [ev Hev].
    rewrite Hev. eexists. split; [reflexivity|].
    cbn [panel].
    split; [discriminate|]. split; [reflexivity|].
    split; [split; discriminate|]. split; [split; discriminate|].
    intros card Hcard. injection Hcard as <-. reflexivity.
  - assert (Hnext : getNextSpecialTime getTimes setDateNext wall (appState ui)
                    = Normal None)
      by (unfold getNextSpecialTime; now rewrite Hs).
    assert (Hday : getCurrentLightingCondition (appState ui) = day)
      by (unfold getCurrentLightingCondition; now rewrite Hs).
    rewrite Hnext, Hday. eexists. split; [reflexivity|].
    cbn [panel className].
    destruct (location (appState ui)) as [loc|] eqn:Hloc.
    + split; [discriminate|]. split; [reflexivity|].
      split; [split; reflexivity|]. split; [split; reflexivity|].
      intros card Hcard. discriminate.
    + split; [reflexivity|]. split; reflexivity.
Qed.

Lemma render_after_events_witness :
  exists v,
    render longDayGetTimes utcSetDateNext (clockTime 0 23 56)
      (stateAfter longDayGetTimes (clockTime 0 11 59) fixAtNoon) = Normal v /\
    className v = "min-h-screen transition-all duration-1000 bg-gradient-blue".
Proof.
  destruct (render_after_events longDayGetTimes utcSetDateNext
              (clockTime 0 11 59) (clockTime 0 23 56) fixAtNoon)
    as [v [Hv _]].
  exists v. split; [exact Hv|].
  vm_compute in Hv. injection Hv as <-. reflexivity.
Defined.

Lemma reachable_never_throws_witness :
  location (appState (stateAfter longDayGetTimes (clockTime 0 11 59) fixAtNoon))
  <> None /\
  getNextSpecialTime longDayGetTimes utcSetDateNext (clockTime 0 23 56)
    (appState (stateAfter longDayGetTimes (clockTime 0 11 59) fixAtNoon))
  <> TypeError.
Proof.
  split.
  - apply (proj1 (reachable_never_throws longDayGetTimes utcSetDateNext
                    (clockTime 0 11 59) (clockTime 0 23 56) fixAtNoon)).
    discriminate.
  - apply (proj2 (reachable_never_throws longDayGetTimes utcSetDateNext
                    (clockTime 0 11 59) (clockTime 0 23 56) fixAtNoon)).
Defined.

(** ** A successful location fix *)

(** X14: a click, a resolved position and the run of the effect, from any
    state, leave the resolved coordinates as the location, the sun times the
    effect stores for the provider's answer at those coordinates, the clock
    untouched and [isLoadingLocation] false, and issue the success toast
    alone; nothing of the previous location or sun times remains. *)
Theorem successful_fix_replaces_sun_times
  (getTimes : Z -> Q -> Q -> SunCalc.Times)
  (wall : Z) (lat lng : Q) (ui : UiState) :
  let times := getTimes wall lat lng in
  run getTimes
    [LocationClicked; PositionSettled (PositionResolved lat lng);
     LocationEffectRan wall] ui =
  ({| appState :=
        {| location := Some {| latitude := lat; longitude := lng |};
           sunTimes :=
             Some (sunTimesFor (SunCalc.sunrise times) (SunCalc.sunset times));
           currentTime := currentTime (appState ui) |};
      isLoadingLocation := false |},
   [locationFoundToast]).
Proof.
  intros times. subst times.
  cbn [run step fst snd getCurrentLocation_settle getCurrentLocation_try
       List.app].
  unfold onApp, setIsLoadingLocation. cbn [appState isLoadingLocation].
  rewrite (sunTimesEffect_located getTimes wall _ (mkLocation lat lng))
    by reflexivity.
  reflexivity.
Qed.
